(** * Verification model of the enhanced calculator (src/app)

    Shallow embedding of the calculation engine: the operations of
    [operations.py], the validator of [input_validators.py], the history
    buffer of [history.py], the memento caretaker of [calculator_memento.py]
    and the orchestrator [Calculator] of [calculator.py].

    Python floats are kept abstract behind the class [PyFloat]: every
    primitive the code uses ([==], [<], [+], [%], [**], [round], [float()])
    is a field.  Theorems that do not depend on arithmetic hold for every
    instance, IEEE doubles included.  [QFloat] is a rational instance used to
    run the code on concrete inputs.  [Binary64] models the remainder [%] on
    IEEE binary64 numbers, where its rounding matters. *)

From Stdlib Require Import ZArith QArith Qround Qabs Lia Ascii String.
From Stdlib Require Floats.SpecFloat.
From stdpp Require Import base list gmap strings pretty.

Open Scope string_scope.

(** ** Python exceptions raised by the code *)

Inductive exn :=
| ValidationError (msg : string)
| OperationError (msg : string)
| HistoryError (msg : string)
| ValueError (msg : string)
| OverflowError (msg : string)
| ZeroDivisionError (msg : string)
| TypeError (msg : string)
| AttributeError (msg : string).

(** [str(e)] *)
Definition exn_str (e : exn) : string :=
  match e with
  | ValidationError m | OperationError m | HistoryError m | ValueError m
  | OverflowError m | ZeroDivisionError m | TypeError m | AttributeError m => m
  end.

Inductive res (A : Type) :=
| Ok (a : A)
| Err (e : exn).
Arguments Ok {A} a.
Arguments Err {A} e.

(** ** Python floats *)

(** Outcome of the Python expression [x ** y] on floats: a float, a
    complex number (negative base, fractional exponent), or an exception
    (overflow, [0.0 ** -1]). *)
Inductive pow_out (F : Type) :=
| PowFloat (x : F)
| PowComplex
| PowRaise (e : exn).
Arguments PowFloat {F} x.
Arguments PowComplex {F}.
Arguments PowRaise {F} e.

Class PyFloat (F : Type) := {
  f_zero : F;
  f_one : F;
  f_two : F;
  f_hundred : F;
  f_eq : F -> F -> bool;            (** [x == y] *)
  f_lt : F -> F -> bool;            (** [x < y] *)
  f_add : F -> F -> F;
  f_sub : F -> F -> F;
  f_mul : F -> F -> F;
  f_div : F -> F -> F;              (** [x / y], used with [y != 0] *)
  f_neg : F -> F;
  f_abs : F -> F;
  f_mod : F -> F -> F;              (** [x % y], used with [y != 0] *)
  f_floordiv : F -> F -> F;         (** [x // y], used with [y != 0] *)
  f_pow : F -> F -> pow_out F;      (** [x ** y] *)
  f_round : F -> Z -> F;            (** [round(x, n)] *)
  f_of_string : string -> option F; (** [float(s)]; [None] is ValueError *)
  f_of_int : Z -> option F;         (** [float(n)]; [None] is OverflowError *)
  f_str : F -> string               (** [str(x)] in f-strings *)
}.

(** A value handed to the validator: [Union[str, float, int]]. *)
Inductive pyval (F : Type) :=
| VStr (s : string)
| VFloat (x : F)
| VInt (n : Z).
Arguments VStr {F} s.
Arguments VFloat {F} x.
Arguments VInt {F} n.

(** ** Strings: [str.strip] and [str.lower] on ASCII text *)

Definition is_space (c : ascii) : bool :=
  let n := Ascii.nat_of_ascii c in
  (Nat.leb 9 n && Nat.leb n 13) || (Nat.leb 28 n && Nat.leb n 32).

Fixpoint lstrip (s : string) : string :=
  match s with
  | EmptyString => EmptyString
  | String c t => if is_space c then lstrip t else s
  end.

Fixpoint rev_str (s : string) : string :=
  match s with
  | EmptyString => EmptyString
  | String c t => rev_str t ++ String c EmptyString
  end.

Definition rstrip (s : string) : string :=
  rev_str (lstrip (rev_str s)).

Definition strip (s : string) : string := rstrip (lstrip s).

Definition lower_char (c : ascii) : ascii :=
  let n := Ascii.nat_of_ascii c in
  if Nat.leb 65 n && Nat.leb n 90 then Ascii.ascii_of_nat (n + 32) else c.

Fixpoint lower (s : string) : string :=
  match s with
  | EmptyString => EmptyString
  | String c t => String (lower_char c) (lower t)
  end.

Section Engine.
Context {F : Type} `{PyFloat F}.

(** ** operations.py *)

Inductive Operation :=
| AddOperation | SubtractOperation | MultiplyOperation | DivideOperation
| PowerOperation | RootOperation | ModulusOperation | IntDivideOperation
| PercentOperation | AbsDiffOperation.

(** [Operation.execute] for each subclass. *)
Definition execute (op : Operation) (operand1 operand2 : F) : res F :=
  match op with
  | AddOperation => Ok (f_add operand1 operand2)
  | SubtractOperation => Ok (f_sub operand1 operand2)
  | MultiplyOperation => Ok (f_mul operand1 operand2)
  | DivideOperation =>
      if f_eq operand2 f_zero
      then Err (OperationError "Division by zero is not allowed")
      else Ok (f_div operand1 operand2)
  | PowerOperation =>
      match f_pow operand1 operand2 with
      | PowFloat r => Ok r
      | PowComplex =>
          Err (OperationError ("Cannot compute " ++ f_str operand1
                 ++ " to the power of " ++ f_str operand2))
      | PowRaise (ValueError m) | PowRaise (OverflowError m) =>
          Err (OperationError ("Power operation failed: " ++ m))
      | PowRaise e => Err e
      end
  | RootOperation =>
      if f_lt operand1 f_zero && f_eq (f_mod operand2 f_two) f_zero
      then Err (OperationError "Cannot compute even root of negative number")
      else if f_eq operand2 f_zero
      then Err (OperationError "Root degree cannot be zero")
      else
        let r :=
          if f_lt operand1 f_zero && f_eq (f_mod operand2 f_two) f_one
          then match f_pow (f_neg operand1) (f_div f_one operand2) with
               | PowFloat x => PowFloat (f_neg x)
               | PowComplex => PowComplex
               | PowRaise e => PowRaise e
               end
          else f_pow operand1 (f_div f_one operand2) in
        match r with
        | PowFloat x => Ok x
        | PowComplex =>
            Err (OperationError ("Cannot compute " ++ f_str operand2
                   ++ "th root of " ++ f_str operand1))
        | PowRaise (ValueError m) | PowRaise (OverflowError m)
        | PowRaise (ZeroDivisionError m) =>
            Err (OperationError ("Root operation failed: " ++ m))
        | PowRaise e => Err e
        end
  | ModulusOperation =>
      if f_eq operand2 f_zero
      then Err (OperationError "Modulus by zero is not allowed")
      else Ok (f_mod operand1 operand2)
  | IntDivideOperation =>
      if f_eq operand2 f_zero
      then Err (OperationError "Integer division by zero is not allowed")
      else Ok (f_floordiv operand1 operand2)
  | PercentOperation =>
      if f_eq operand2 f_zero
      then Err (OperationError "Percentage calculation: divisor cannot be zero")
      else Ok (f_mul (f_div operand1 operand2) f_hundred)
  | AbsDiffOperation => Ok (f_abs (f_sub operand1 operand2))
  end.

(** [OperationFactory._operations] *)
Definition operations_table : list (string * Operation) :=
  [("add", AddOperation); ("subtract", SubtractOperation);
   ("multiply", MultiplyOperation); ("divide", DivideOperation);
   ("power", PowerOperation); ("root", RootOperation);
   ("modulus", ModulusOperation); ("int_divide", IntDivideOperation);
   ("percent", PercentOperation); ("abs_diff", AbsDiffOperation)].

Fixpoint table_lookup (k : string) (t : list (string * Operation)) : option Operation :=
  match t with
  | [] => None
  | (k', v) :: t' => if String.eqb k k' then Some v else table_lookup k t'
  end.

(** [OperationFactory.create] *)
Definition create (operation_name : string) : res Operation :=
  let operation_name := lower operation_name in
  match table_lookup operation_name operations_table with
  | Some op => Ok op
  | None => Err (OperationError ("Unknown operation: " ++ operation_name))
  end.

(** [Operation.get_symbol] for each subclass. *)
Definition get_symbol (op : Operation) : string :=
  match op with
  | AddOperation => "add"
  | SubtractOperation => "subtract"
  | MultiplyOperation => "multiply"
  | DivideOperation => "divide"
  | PowerOperation => "power"
  | RootOperation => "root"
  | ModulusOperation => "modulus"
  | IntDivideOperation => "int_divide"
  | PercentOperation => "percent"
  | AbsDiffOperation => "abs_diff"
  end.

(** [OperationFactory.get_available_operations] *)
Definition get_available_operations : list string := map fst operations_table.


(** ** calculator_config.py: the keys the engine reads *)

Record CalculatorConfig := {
  max_history_size : Z;     (** CALCULATOR_MAX_HISTORY_SIZE, any [int] *)
  auto_save : bool;         (** CALCULATOR_AUTO_SAVE *)
  precision : Z;            (** CALCULATOR_PRECISION *)
  max_input_value : F;      (** CALCULATOR_MAX_INPUT_VALUE *)
  history_file : string     (** CALCULATOR_HISTORY_FILE *)
}.

(** ** input_validators.py *)

(** [float(value)] *)
Definition to_float (value : pyval F) : res F :=
  match value with
  | VStr s =>
      match f_of_string s with
      | Some x => Ok x
      | None => Err (ValueError ("could not convert string to float: " ++ s))
      end
  | VFloat x => Ok x
  | VInt n =>
      match f_of_int n with
      | Some x => Ok x
      | None => Err (OverflowError "int too large to convert to float")
      end
  end.

(** [InputValidator.validate_number]: ValueError and TypeError become
    ValidationError; an OverflowError of [float(int)] is not caught. *)
Definition validate_number (cfg : CalculatorConfig) (value : pyval F) : res F :=
  match to_float value with
  | Err (ValueError _) | Err (TypeError _) =>
      Err (ValidationError ("Invalid number: "
             ++ match value with VStr s => s | VFloat x => f_str x | VInt _ => "" end))
  | Err e => Err e
  | Ok number =>
      if f_lt (max_input_value cfg) (f_abs number)
      then Err (ValidationError ("Number " ++ f_str number
             ++ " exceeds maximum allowed value: " ++ f_str (max_input_value cfg)))
      else Ok number
  end.

(** [InputValidator.validate_operation] *)
Definition validate_operation (operation : string) : res string :=
  if String.eqb (strip operation) ""
  then Err (ValidationError "Operation name cannot be empty")
  else Ok (lower (strip operation)).

(** [InputValidator.validate_operands] *)
Definition validate_operands (cfg : CalculatorConfig) (operand1 operand2 : pyval F)
    : res (F * F) :=
  match validate_number cfg operand1 with
  | Err e => Err e
  | Ok x =>
      match validate_number cfg operand2 with
      | Err e => Err e
      | Ok y => Ok (x, y)
      end
  end.

(** ** calculation.py *)

(** The value of a [timestamp] field: a datetime (a reading of the clock),
    or a value of another type that [from_dict] keeps as it is, such as the
    float NaN that pandas reads from an empty cell; it is named by its type. *)
Inductive timestamp_val :=
| TDatetime (t : Z)
| TOther (type_name : string).

(** [Calculation] *)
Record Calculation := {
  operation : string;
  operand1 : F;
  operand2 : F;
  result : F;
  timestamp : timestamp_val
}.

(** [Calculation.to_dict]: [self.timestamp.isoformat()] raises
    AttributeError when the timestamp is not a datetime.  The dict is
    kept as the record it is read back into (see [csv_file]). *)
Definition to_dict (c : Calculation) : res Calculation :=
  match timestamp c with
  | TDatetime _ => Ok c
  | TOther ty => Err (AttributeError ("'" ++ ty ++ "' object has no attribute 'isoformat'"))
  end.

(** [[calc.to_dict() for calc in self.history]] *)
Fixpoint to_dict_all (h : list Calculation) : res (list Calculation) :=
  match h with
  | [] => Ok []
  | c :: t =>
      match to_dict c with
      | Err e => Err e
      | Ok d => match to_dict_all t with Err e => Err e | Ok ds => Ok (d :: ds) end
      end
  end.

(** ** The file system seen by [save_to_csv] / [load_from_csv]

    The CSV text codec (pandas) is outside the model: a file holds the
    parsed table, one entry per row, [None] for a row on which
    [Calculation.from_dict] raises.  A row written from [to_dict] of a
    record is read back as that record: the ISO timestamp goes through
    [datetime.fromisoformat] and the floats through their repr.  Log files
    written by the logger are not part of this file system. *)
Inductive csv_file :=
| CsvEmpty                                                  (** EmptyDataError *)
| CsvTable (columns : list string) (rows : list (option Calculation))
| CsvUnreadable (msg : string).                             (** read_csv raises *)

Record filesystem := {
  files : string -> option csv_file;   (** [None]: [Path(p).exists()] is False *)
  writable : string -> bool            (** mkdir/to_csv succeed at this path *)
}.

Definition fs_write (fs0 : filesystem) (p : string) (f : csv_file) : filesystem :=
  {| files := fun q => if String.eqb q p then Some f else files fs0 q;
     writable := writable fs0 |}.

Definition required_columns : list string :=
  ["operation"; "operand1"; "operand2"; "result"; "timestamp"].

(** ** history.py *)

Record HistoryManager := {
  hm_history : list Calculation;   (** [self.history] *)
  max_size : Z                     (** [self.max_size] *)
}.

(** [HistoryManager.__init__] *)
Definition new_history_manager (cfg : CalculatorConfig) : HistoryManager :=
  {| hm_history := []; max_size := max_history_size cfg |}.

(** [HistoryManager.add]: append, then [pop(0)] when over [max_size]. *)
Definition add (hm : HistoryManager) (calculation : Calculation) : HistoryManager :=
  let h := (hm_history hm ++ [calculation])%list in
  {| hm_history := if Z.gtb (Z.of_nat (length h)) (max_size hm) then tl h else h;
     max_size := max_size hm |}.

(** [HistoryManager.clear] *)
Definition clear (hm : HistoryManager) : HistoryManager :=
  {| hm_history := []; max_size := max_size hm |}.

(** [HistoryManager.get_all]: records are values here, so the copy is the
    list itself (sharing of record objects is modelled in [Aliasing]). *)
Definition get_all (hm : HistoryManager) : list Calculation := hm_history hm.

(** [HistoryManager.save_to_csv] *)
Definition save_to_csv (hm : HistoryManager) (cfg : CalculatorConfig)
    (fs0 : filesystem) (file_path : option string) : res (string * filesystem) :=
  let file_path := match file_path with Some p => p | None => history_file cfg end in
  match to_dict_all (hm_history hm) with
  | Err e => Err (HistoryError ("Failed to save history to CSV: " ++ exn_str e))
  | Ok data =>
      if writable fs0 file_path
      then Ok (file_path,
               fs_write fs0 file_path (CsvTable required_columns (map Some data)))
      else Err (HistoryError ("Failed to save history to CSV: " ++ file_path))
  end.

Definition has_columns (cols : list string) : bool :=
  forallb (fun c => existsb (String.eqb c) cols) required_columns.

Definition required_columns_repr : string :=
  "['operation', 'operand1', 'operand2', 'result', 'timestamp']".

(** [HistoryManager.load_from_csv] *)
Definition load_from_csv (hm : HistoryManager) (cfg : CalculatorConfig)
    (fs0 : filesystem) (file_path : option string)
    : res (list Calculation * HistoryManager) :=
  let file_path := match file_path with Some p => p | None => history_file cfg end in
  match files fs0 file_path with
  | None => Ok ([], hm)
  | Some CsvEmpty => Ok ([], hm)
  | Some (CsvUnreadable m) =>
      Err (HistoryError ("Failed to load history from CSV: " ++ m))
  | Some (CsvTable cols rows) =>
      if has_columns cols
      then let calculations := omap id rows in
           Ok (calculations, {| hm_history := calculations; max_size := max_size hm |})
      else Err (HistoryError ("Failed to load history from CSV: "
                 ++ "CSV file missing required columns: " ++ required_columns_repr))
  end.

(** ** calculator_memento.py

    A memento is a deep copy of the history; with records as values the
    copy is the list itself.  Stacks are lists whose head is the top. *)

Record CalculatorCaretaker := {
  undo_stack : list (list Calculation);
  redo_stack : list (list Calculation)
}.

Definition new_caretaker : CalculatorCaretaker :=
  {| undo_stack := []; redo_stack := [] |}.

(** [CalculatorCaretaker.save_state] *)
Definition save_state (ct : CalculatorCaretaker) (history : list Calculation)
    : CalculatorCaretaker :=
  {| undo_stack := history :: undo_stack ct; redo_stack := [] |}.

(** [CalculatorCaretaker.undo] *)
Definition ct_undo (ct : CalculatorCaretaker) (current_history : list Calculation)
    : list Calculation * CalculatorCaretaker :=
  match undo_stack ct with
  | [] => (current_history, ct)
  | previous :: rest =>
      (previous, {| undo_stack := rest; redo_stack := current_history :: redo_stack ct |})
  end.

(** [CalculatorCaretaker.redo] *)
Definition ct_redo (ct : CalculatorCaretaker) (current_history : list Calculation)
    : list Calculation * CalculatorCaretaker :=
  match redo_stack ct with
  | [] => (current_history, ct)
  | next :: rest =>
      (next, {| undo_stack := current_history :: undo_stack ct; redo_stack := rest |})
  end.

Definition can_undo (ct : CalculatorCaretaker) : bool := Nat.ltb 0 (length (undo_stack ct)).
Definition can_redo (ct : CalculatorCaretaker) : bool := Nat.ltb 0 (length (redo_stack ct)).

End Engine.

(** ** calculator.py *)

Section Calc.
Context {F : Type} `{PyFloat F}.
Local Abbreviation Calculation := (@Calculation F).

(** The [HistoryManager] an [AutoSaveObserver] was built with: the
    calculator's own manager, or another manager together with the
    configuration it reads.  Nothing the calculator does changes another
    manager, so it is held by value. *)
Inductive manager_ref :=
| CalculatorManager
| OtherManager (hm : HistoryManager (F := F)) (cfg : CalculatorConfig (F := F)).

Inductive observer_kind :=
| LoggingObserver
| AutoSaveObserver (history_manager : manager_ref).

(** An observer object: [obs_id] stands for its identity, which is what
    [observer in self.observers] and [list.remove] compare (Observer
    defines no [__eq__]). *)
Record observer := {
  obs_id : nat;
  obs_kind : observer_kind
}.

Record Calculator := {
  config : CalculatorConfig (F := F);
  history_manager : HistoryManager (F := F);
  caretaker : CalculatorCaretaker (F := F);
  observers : list observer
}.

(** The calculator together with the outside world it touches: the file
    system and the clock read by [datetime.now()]. *)
Record world := {
  calculator : Calculator;
  fs : filesystem (F := F);
  clock : Z
}.

(** State and exception monad: a raised exception keeps the state reached
    when it was raised, as in Python. *)
Definition M (A : Type) : Type := world -> res A * world.

Definition ret {A} (a : A) : M A := fun w => (Ok a, w).
Definition bind {A B} (m : M A) (k : A -> M B) : M B :=
  fun w => match m w with
           | (Ok a, w') => k a w'
           | (Err e, w') => (Err e, w')
           end.
Definition raise {A} (e : exn) : M A := fun w => (Err e, w).
Definition lift {A} (r : res A) : M A :=
  match r with Ok a => ret a | Err e => raise e end.
(** [try: m except: handler] *)
Definition try_except {A} (m : M A) (handler : exn -> M A) : M A :=
  fun w => match m w with
           | (Err e, w') => handler e w'
           | r => r
           end.
Definition get_world : M world := fun w => (Ok w, w).
Definition put_world (w : world) : M unit := fun _ => (Ok tt, w).

Notation "x <- m ;; k" := (bind m (fun x => k))
  (at level 100, m at next level, right associativity).
Notation "m ;;; k" := (bind m (fun _ => k))
  (at level 100, right associativity).

Definition get_calc : M Calculator := fun w => (Ok (calculator w), w).
Definition put_calc (c : Calculator) : M unit :=
  fun w => (Ok tt, {| calculator := c; fs := fs w; clock := clock w |}).

Definition set_history_manager (c : Calculator) (hm : HistoryManager) : Calculator :=
  {| config := config c; history_manager := hm; caretaker := caretaker c;
     observers := observers c |}.
Definition set_caretaker (c : Calculator) (ct : CalculatorCaretaker) : Calculator :=
  {| config := config c; history_manager := history_manager c; caretaker := ct;
     observers := observers c |}.
Definition set_observers (c : Calculator) (obs : list observer) : Calculator :=
  {| config := config c; history_manager := history_manager c; caretaker := caretaker c;
     observers := obs |}.
Definition set_history (hm : HistoryManager (F := F)) (h : list Calculation) : HistoryManager (F := F) :=
  {| hm_history := h; max_size := max_size hm |}.

(** [datetime.now()]: the clock reading; the clock moves forward. *)
Definition datetime_now : M Z :=
  fun w => (Ok (clock w), {| calculator := calculator w; fs := fs w; clock := clock w + 1 |}).

(** [Calculator.__init__] and [_register_default_observers] *)
Definition new_calculator (cfg : CalculatorConfig) : Calculator :=
  {| config := cfg;
     history_manager := new_history_manager cfg;
     caretaker := new_caretaker;
     observers := [{| obs_id := 0; obs_kind := LoggingObserver |}]
                  ++ (if auto_save cfg
                      then [{| obs_id := 1; obs_kind := AutoSaveObserver CalculatorManager |}]
                      else []) |}.

(** [Calculator.register_observer] / [remove_observer] *)
Definition register_observer (o : observer) : M unit :=
  c <- get_calc ;; put_calc (set_observers c (observers c ++ [o])).

Fixpoint remove_first (o : observer) (l : list observer) : list observer :=
  match l with
  | [] => []
  | o' :: t => if Nat.eqb (obs_id o) (obs_id o') then t else o' :: remove_first o t
  end.

Definition remove_observer (o : observer) : M unit :=
  c <- get_calc ;; put_calc (set_observers c (remove_first o (observers c))).

(** [Observer.update]: logging writes to the log only, which is not
    modelled; the auto-save observer saves the manager it was built with
    to that manager's history file and swallows a failure. *)
Definition update (o : observer) (calculation : Calculation) : M unit :=
  match obs_kind o with
  | LoggingObserver => ret tt
  | AutoSaveObserver target =>
      w <- get_world ;;
      let c := calculator w in
      let '(hm, cfg) := match target with
                        | CalculatorManager => (history_manager c, config c)
                        | OtherManager hm cfg => (hm, cfg)
                        end in
      match save_to_csv hm cfg (fs w) None with
      | Ok (_, fs') => put_world {| calculator := c; fs := fs'; clock := clock w |}
      | Err _ => ret tt
      end
  end.

Fixpoint notify_each (obs : list observer) (calculation : Calculation) : M unit :=
  match obs with
  | [] => ret tt
  | o :: t =>
      try_except (update o calculation) (fun _ => ret tt) ;;;
      notify_each t calculation
  end.

(** [Calculator._notify_observers] *)
Definition notify_observers (calculation : Calculation) : M unit :=
  c <- get_calc ;; notify_each (observers c) calculation.

(** Lines 1-26 of [Calculator.calculate]: validate, execute, round and
    build the record. *)
Definition build_calculation (operation0 : string) (a b : pyval F) : M Calculation :=
  c <- get_calc ;;
  let cfg := config c in
  operation <- lift (validate_operation operation0) ;;
  operands <- lift (validate_operands cfg a b) ;;
  let '(o1, o2) := operands in
  op <- lift (create operation) ;;
  r <- lift (match execute op o1 o2 with
             | Ok r => Ok r
             | Err (OperationError m) => Err (OperationError m)
             | Err e => Err (OperationError ("Operation failed: " ++ exn_str e))
             end) ;;
  let r := f_round r (precision cfg) in
  ts <- datetime_now ;;
  ret {| operation := operation; operand1 := o1; operand2 := o2;
         result := r; timestamp := TDatetime ts |}.

(** The rest of [Calculator.calculate]: snapshot, append, notify. *)
Definition commit_calculation (calculation : Calculation) : M unit :=
  c <- get_calc ;;
  put_calc (set_caretaker c (save_state (caretaker c) (get_all (history_manager c)))) ;;;
  c <- get_calc ;;
  put_calc (set_history_manager c (add (history_manager c) calculation)) ;;;
  notify_observers calculation.

(** [Calculator.calculate] *)
Definition calculate (operation0 : string) (a b : pyval F) : M F :=
  calculation <- build_calculation operation0 a b ;;
  commit_calculation calculation ;;;
  ret (result calculation).

(** [Calculator.get_history] *)
Definition get_history : M (list Calculation) :=
  c <- get_calc ;; ret (get_all (history_manager c)).

(** [Calculator.clear_history] *)
Definition clear_history : M unit :=
  c <- get_calc ;;
  put_calc (set_caretaker c (save_state (caretaker c) (get_all (history_manager c)))) ;;;
  c <- get_calc ;;
  put_calc (set_history_manager c (clear (history_manager c))).

(** [Calculator.undo] *)
Definition undo : M bool :=
  c <- get_calc ;;
  if negb (can_undo (caretaker c)) then ret false
  else
    let '(previous_history, ct) := ct_undo (caretaker c) (get_all (history_manager c)) in
    put_calc (set_caretaker (set_history_manager c
                (set_history (history_manager c) previous_history)) ct) ;;;
    ret true.

(** [Calculator.redo] *)
Definition redo : M bool :=
  c <- get_calc ;;
  if negb (can_redo (caretaker c)) then ret false
  else
    let '(next_history, ct) := ct_redo (caretaker c) (get_all (history_manager c)) in
    put_calc (set_caretaker (set_history_manager c
                (set_history (history_manager c) next_history)) ct) ;;;
    ret true.

(** [Calculator.save_history] *)
Definition save_history (file_path : option string) : M string :=
  w <- get_world ;;
  let c := calculator w in
  r <- lift (save_to_csv (history_manager c) (config c) (fs w) file_path) ;;
  let '(p, fs') := r in
  put_world {| calculator := c; fs := fs'; clock := clock w |} ;;;
  ret p.

(** [Calculator.load_history] *)
Definition load_history (file_path : option string) : M (list Calculation) :=
  w <- get_world ;;
  let c := calculator w in
  r <- lift (load_from_csv (history_manager c) (config c) (fs w) file_path) ;;
  let '(calculations, hm') := r in
  put_calc (set_history_manager c hm') ;;;
  ret calculations.

End Calc.

(** ** A rational instance of [PyFloat], to run the code on concrete inputs

    Finite doubles are rationals, and on them [==], [<], [abs], [%] and
    [//] with a nonzero divisor, and [round] agree with exact rational
    arithmetic up to the final rounding of a result.  Powers with a rational
    result are computed exactly; a power with an irrational result cannot
    be represented and is reported as ValueError. *)
Module QFloat.
Local Open Scope Z_scope.

Fixpoint root_search (fuel : nat) (k n lo hi : Z) : Z :=
  match fuel with
  | O => lo
  | S f =>
      if Z.geb lo hi then lo
      else let mid := (lo + hi + 1) / 2 in
           if Z.leb (mid ^ k) n then root_search f k n mid hi
           else root_search f k n lo (mid - 1)
  end.

(** Integer part of the [k]-th root of [n >= 0]. *)
Definition int_root (k n : Z) : Z :=
  root_search (2 * Z.to_nat (Z.log2 n) + 4) k n 0 n.

Definition qpow (x y : Q) : pow_out Q :=
  let y := Qred y in
  let p := Qnum y in
  let q := Zpos (Qden y) in
  if Z.eqb q 1 then
    if Qeq_bool x 0 && Z.ltb p 0
    then PowRaise (ZeroDivisionError "0.0 cannot be raised to a negative power")
    else PowFloat (Qpower x p)
  else if negb (Qle_bool 0 x) then PowComplex
  else
    let x := Qred x in
    let rn := int_root q (Qnum x) in
    let rd := int_root q (Zpos (Qden x)) in
    if Z.eqb (rn ^ q) (Qnum x) && Z.eqb (rd ^ q) (Zpos (Qden x))
    then PowFloat (Qpower (inject_Z rn / inject_Z rd)%Q p)
    else PowRaise (ValueError "irrational result").

(** [round(x, n)]: round half to even at [n] decimals. *)
Definition qround (x : Q) (n : Z) : Q :=
  let s := Qpower 10 n in
  let y := (x * s)%Q in
  let fl := Qfloor y in
  let frac := (y - inject_Z fl)%Q in
  let r := if Qle_bool (1 # 2) frac && negb (Qeq_bool frac (1 # 2)) then fl + 1
           else if Qeq_bool frac (1 # 2) then (if Z.even fl then fl else fl + 1)
           else fl in
  (inject_Z r / s)%Q.

Definition digit (c : ascii) : option Z :=
  let n := Ascii.nat_of_ascii c in
  if Nat.leb 48 n && Nat.leb n 57 then Some (Z.of_nat (n - 48)) else None.

(** Digits, then optionally a point and digits: value and number of
    fractional digits; [seen] records that a digit was read. *)
Fixpoint parse_digits (s : string) (acc : Z) (frac : option Z) (seen : bool)
    : option (Z * Z) :=
  match s with
  | EmptyString =>
      if seen then Some (acc, match frac with Some k => k | None => 0 end) else None
  | String c t =>
      match digit c, frac with
      | Some d, None => parse_digits t (10 * acc + d) None true
      | Some d, Some k => parse_digits t (10 * acc + d) (Some (k + 1)) true
      | None, None => if Ascii.eqb c "." then parse_digits t acc (Some 0) seen else None
      | None, Some _ => None
      end
  end.

(** [float(s)] for decimal literals. *)
Definition qparse (s : string) : option Q :=
  let s := strip s in
  let '(neg, body) :=
    match s with
    | String c t => if Ascii.eqb c "-" then (true, t)
                    else if Ascii.eqb c "+" then (false, t) else (false, s)
    | EmptyString => (false, s)
    end in
  match parse_digits body 0 None false with
  | Some (m, k) =>
      let q := (inject_Z m / Qpower 10 k)%Q in Some (if neg then (- q)%Q else q)
  | None => None
  end.

Definition qstr (x : Q) : string :=
  let x := Qred x in
  if Z.eqb (Zpos (Qden x)) 1 then pretty (Qnum x) +:+ ".0"
  else pretty (Qnum x) +:+ "/" +:+ pretty (Zpos (Qden x)).

Global Instance QFloat : PyFloat Q := {
  f_zero := 0%Q; f_one := 1%Q; f_two := 2%Q; f_hundred := 100%Q;
  f_eq := Qeq_bool;
  f_lt := fun x y => negb (Qle_bool y x);
  f_add := Qplus; f_sub := Qminus; f_mul := Qmult; f_div := Qdiv;
  f_neg := Qopp; f_abs := Qabs;
  f_mod := fun x y => (x - y * inject_Z (Qfloor (x / y)))%Q;
  f_floordiv := fun x y => inject_Z (Qfloor (x / y)%Q);
  f_pow := qpow;
  f_round := qround;
  f_of_string := qparse;
  f_of_int := fun z => if Z.leb (2 ^ 1024 - 2 ^ 970) (Z.abs z) then None
                       else Some (inject_Z z);
  f_str := qstr
}.

End QFloat.

(** ** Python floats as IEEE binary64: the remainder [x % y]

    CPython's [float.__mod__] ([float_rem] in Objects/floatobject.c) on
    the binary64 numbers of [SpecFloat] ([prec = 53], [emax = 1024]),
    with C's [fmod] and IEEE addition rounding to nearest, ties to even. *)
Module Binary64.
Import SpecFloat.

Definition prec : Z := 53.
Definition emax : Z := 1024.

Definition zero : spec_float := S754_zero false.

(** The sign bit. *)
Definition sign (x : spec_float) : bool :=
  match x with
  | S754_zero s | S754_infinity s | S754_finite s _ _ => s
  | S754_nan => false
  end.

Definition is_finite (x : spec_float) : bool :=
  match x with
  | S754_zero _ | S754_finite _ _ _ => true
  | _ => false
  end.

(** C's [fmod(x, y)]: the exact remainder [x - n*y], [n] the quotient
    [x/y] truncated towards zero, with the sign of [x].  It is a binary64
    number, so the final rounding is exact. *)
Definition fmod (x y : spec_float) : spec_float :=
  match x, y with
  | S754_nan, _ | _, S754_nan => S754_nan
  | S754_infinity _, _ => S754_nan
  | _, S754_zero _ => S754_nan
  | S754_zero _, _ => x
  | S754_finite _ _ _, S754_infinity _ => x
  | S754_finite sx mx ex, S754_finite _ my ey =>
      let e := Z.min ex ey in
      let r := Z.rem (Zpos mx * 2 ^ (ex - e)) (Zpos my * 2 ^ (ey - e)) in
      if Z.eqb r 0 then S754_zero sx
      else binary_round prec emax sx (Z.to_pos r) e
  end.

(** [float_rem(v, w)] *)
Definition float_rem (vx wx : spec_float) : res spec_float :=
  if SFeqb wx zero then Err (ZeroDivisionError "float modulo")
  else
    let md := fmod vx wx in
    Ok (if negb (SFeqb md zero)                    (* if (mod) *)
        then if xorb (SFltb wx zero) (SFltb md zero)
             then SFadd prec emax md wx            (* mod += wx *)
             else md
        else S754_zero (sign wx)).                  (* copysign(0.0, wx) *)

(** [ModulusOperation.execute] on binary64 operands. *)
Definition modulus_execute (operand1 operand2 : spec_float) : res spec_float :=
  if SFeqb operand2 zero
  then Err (OperationError "Modulus by zero is not allowed")
  else float_rem operand1 operand2.

(** The exact rational value of a finite number. *)
Definition to_Q (x : spec_float) : Q :=
  match x with
  | S754_finite s m e =>
      let q := (Zpos m * 2 ^ Z.max e 0) # Z.to_pos (2 ^ Z.max (- e) 0) in
      if s then Qopp q else q
  | _ => 0%Q
  end.

(** [-2.0 ** -70] and [1.0]. *)
Definition minus_two_pow_m70 : spec_float := S754_finite true (2 ^ 52) (-122).
Definition one : spec_float := S754_finite false (2 ^ 52) (-52).

(** [7.0] and [-2.0]. *)
Definition seven : spec_float := S754_finite false (7 * 2 ^ 50) (-50).
Definition minus_two : spec_float := S754_finite true (2 ^ 52) (-51).

End Binary64.

(** ** Sequences of calls *)

(** The [n] most recent elements of [l], oldest first. *)
Definition lastn {A} (n : nat) (l : list A) : list A := drop (length l - n) l.

Section Traces.
Context {F : Type} `{PyFloat F}.
Local Abbreviation Calculation := (@Calculation F).

(** What the second half of [calculate] does to the calculator. *)
Definition committed (calc : Calculator) (c : Calculation) : Calculator :=
  {| config := config calc;
     history_manager := add (history_manager calc) c;
     caretaker := save_state (caretaker calc) (get_all (history_manager calc));
     observers := observers calc |}.

(** Consecutive [calculate] calls, each running the body of [calculate]
    ([build_calculation] then [commit_calculation]); the result lists the
    record each call appended. *)
Fixpoint calculate_each (calls : list (string * pyval F * pyval F))
    : M (list Calculation) :=
  match calls with
  | [] => ret []
  | (o, a, b) :: rest =>
      bind (build_calculation o a b) (fun c =>
      bind (commit_calculation c) (fun _ =>
      bind (calculate_each rest) (fun cs => ret (c :: cs))))
  end.

(** Every list the calculator holds (its history and each snapshot) has
    at most [max(max_size, 0)] records. *)
Definition bounded (c : Calculator (F := F)) : Prop :=
  let m := Z.to_nat (max_size (history_manager c)) in
  (length (hm_history (history_manager c)) <= m)%nat /\
  Forall (fun h => (length h <= m)%nat) (undo_stack (caretaker c)) /\
  Forall (fun h => (length h <= m)%nat) (redo_stack (caretaker c)).

(** A calculator just built from [cfg]. *)
Definition fresh_world (cfg : CalculatorConfig (F := F)) (fs0 : filesystem) (t : Z) : world (F := F) :=
  {| calculator := new_calculator cfg; fs := fs0; clock := t |}.

End Traces.

(** ** Object identity: [get_all] and the records it returns

    In Python the history is a list object holding references to
    [Calculation] objects, which are plain (non-frozen) dataclasses.
    This module models the objects and references involved. *)
Module Aliasing.
Section Heap.
Context {F : Type}.
Local Abbreviation Calculation := (@Calculation F).

Inductive obj :=
| OList (elems : list nat)        (** a Python list of references *)
| OCalc (c : Calculation).        (** a [Calculation] object *)

Record heap := {
  objs : gmap nat obj;
  next : nat                      (** next fresh address *)
}.

Definition heap_wf (h : heap) : Prop := forall l o, objs h !! l = Some o -> l < next h.

Definition alloc (h : heap) (o : obj) : nat * heap :=
  (next h, {| objs := <[next h := o]> (objs h); next := S (next h) |}).

Definition store (h : heap) (l : nat) (o : obj) : heap :=
  {| objs := <[l := o]> (objs h); next := next h |}.

(** [HistoryManager.add]: [self.history.append(c)], then [pop(0)]. *)
Definition hm_add (max_size : Z) (h : heap) (history : nat) (c : nat) : option heap :=
  match objs h !! history with
  | Some (OList es) =>
      let es := (es ++ [c])%list in
      Some (store h history
              (OList (if Z.gtb (Z.of_nat (length es)) max_size then tl es else es)))
  | _ => None
  end.

(** [HistoryManager.get_all]: [self.history.copy()], a new list object
    holding the same references. *)
Definition hm_get_all (h : heap) (history : nat) : option (nat * heap) :=
  match objs h !! history with
  | Some (OList es) => Some (alloc h (OList es))
  | _ => None
  end.

(** The history as the program sees it: the records its list refers to. *)
Definition view (h : heap) (l : nat) : option (list Calculation) :=
  match objs h !! l with
  | Some (OList es) =>
      mapM (fun r => match objs h !! r with Some (OCalc c) => Some c | _ => None end) es
  | _ => None
  end.

(** Mutations of a list object: [append], [pop(i)], [l[i] = x], [clear()];
    an index out of range raises IndexError ([None]). *)
Inductive list_op :=
| LAppend (x : nat)
| LPop (i : nat)
| LSetItem (i x : nat)
| LClear.

Fixpoint delete_at (i : nat) (l : list nat) : list nat :=
  match l, i with
  | [], _ => []
  | _ :: t, O => t
  | x :: t, S j => x :: delete_at j t
  end.

Definition list_op_apply (op : list_op) (es : list nat) : option (list nat) :=
  match op with
  | LAppend x => Some (es ++ [x])%list
  | LPop i => if Nat.ltb i (length es) then Some (delete_at i es) else None
  | LSetItem i x => if Nat.ltb i (length es) then Some (<[i := x]> es) else None
  | LClear => Some []
  end.

(** Assignment to a field of a [Calculation] object. *)
Inductive field_op :=
| SetOperation (s : string)
| SetOperand1 (x : F)
| SetOperand2 (x : F)
| SetResult (x : F)
| SetTimestamp (t : timestamp_val).

Definition field_apply (op : field_op) (c : Calculation) : Calculation :=
  match op with
  | SetOperation s => {| operation := s; operand1 := operand1 c; operand2 := operand2 c;
                         result := result c; timestamp := timestamp c |}
  | SetOperand1 x => {| operation := operation c; operand1 := x; operand2 := operand2 c;
                        result := result c; timestamp := timestamp c |}
  | SetOperand2 x => {| operation := operation c; operand1 := operand1 c; operand2 := x;
                        result := result c; timestamp := timestamp c |}
  | SetResult x => {| operation := operation c; operand1 := operand1 c;
                      operand2 := operand2 c; result := x; timestamp := timestamp c |}
  | SetTimestamp t => {| operation := operation c; operand1 := operand1 c;
                         operand2 := operand2 c; result := result c; timestamp := t |}
  end.

(** What a caller holding the list [l] returned by [get_all] can do. *)
Inductive caller_op :=
| OnList (op : list_op)                  (** mutate the returned list *)
| OnRecord (i : nat) (op : field_op).    (** [l[i].field = v] *)

Definition caller_apply (h : heap) (l : nat) (op : caller_op) : option heap :=
  match objs h !! l with
  | Some (OList es) =>
      match op with
      | OnList lop =>
          match list_op_apply lop es with
          | Some es' => Some (store h l (OList es'))
          | None => None
          end
      | OnRecord i fop =>
          match es !! i with
          | Some r =>
              match objs h !! r with
              | Some (OCalc c) => Some (store h r (OCalc (field_apply fop c)))
              | _ => None
              end
          | None => None
          end
      end
  | _ => None
  end.

Fixpoint caller_run (h : heap) (l : nat) (ops : list caller_op) : option heap :=
  match ops with
  | [] => Some h
  | op :: rest =>
      match caller_apply h l op with
      | Some h' => caller_run h' l rest
      | None => None
      end
  end.

Definition list_only (op : caller_op) : bool :=
  match op with OnList _ => true | OnRecord _ _ => false end.

End Heap.
End Aliasing.

(** ** Concrete configurations and worlds over [QFloat] *)

Module Fixtures.
Import QFloat.

(** The configuration of the test suite with a given history size. *)
Definition cfg_q (n : Z) : CalculatorConfig (F := Q) :=
  {| max_history_size := n; auto_save := true; precision := 10;
     max_input_value := 1000%Q; history_file := "history/calculator_history.csv" |}.

Definition no_files : filesystem (F := Q) :=
  {| files := fun _ => None; writable := fun _ => true |}.

Definition w_fresh (n : Z) : world (F := Q) := fresh_world (cfg_q n) no_files 0.

Definition rec_add : Calculation (F := Q) :=
  {| operation := "add"; operand1 := 5%Q; operand2 := 3%Q; result := 8%Q; timestamp := TDatetime 0 |}.
Definition rec_mul : Calculation (F := Q) :=
  {| operation := "multiply"; operand1 := 2%Q; operand2 := 4%Q; result := 8%Q; timestamp := TDatetime 1 |}.

(** A file system holding a saved history of two records. *)
Definition fs_saved : filesystem (F := Q) :=
  {| files := fun p => if String.eqb p "saved.csv"
                       then Some (CsvTable required_columns [Some rec_add; Some rec_mul])
                       else None;
     writable := fun _ => true |}.

(** Three calculations in a calculator keeping two records. *)
Definition three_calls : list (string * pyval Q * pyval Q) :=
  [("add", VFloat 5%Q, VFloat 3%Q); ("multiply", VFloat 2%Q, VFloat 4%Q);
   ("subtract", VFloat 9%Q, VFloat 1%Q)].

(** One calculation, then an undo: the redo stack is not empty. *)
Definition w_undone : world (F := Q) :=
  snd (undo (snd (calculate "add" (VFloat 5%Q) (VFloat 3%Q) (w_fresh 100)))).

(** The history list at address 1 holds the record at address 0. *)
Definition heap_one : Aliasing.heap (F := Q) :=
  {| Aliasing.objs := <[1 := Aliasing.OList [0]]> (<[0 := Aliasing.OCalc rec_add]> ∅);
     Aliasing.next := 2 |}.

(** One file of each kind, and a path that cannot be written. *)
Definition fs_cases : filesystem (F := Q) :=
  {| files := fun p =>
       if String.eqb p "empty.csv" then Some CsvEmpty
       else if String.eqb p "broken.csv" then Some (CsvUnreadable "Error tokenizing data")
       else if String.eqb p "partial.csv"
       then Some (CsvTable ["operation"; "result"] [Some rec_add])
       else if String.eqb p "mixed.csv"
       then Some (CsvTable required_columns [Some rec_add; None; Some rec_mul])
       else None;
     writable := fun p => negb (String.eqb p "locked.csv") |}.

Definition w_cases : world (F := Q) :=
  snd (calculate "add" (VFloat 5%Q) (VFloat 3%Q) (fresh_world (cfg_q 100) fs_cases 0)).

End Fixtures.

(** ** Properties of the orchestrator *)

Section Proofs.
Context {F : Type} `{PyFloat F}.
Local Abbreviation Calculation := (@Calculation F).
Local Abbreviation world := (@world F).

Ltac unfold_monad :=
  unfold lift, bind, ret, raise, get_calc, put_calc, get_world, put_world,
    try_except, datetime_now in *.

Lemma build_calculation_frame (o : string) (a b : pyval F) (w : world) r w' :
  build_calculation o a b w = (r, w') ->
  calculator w' = calculator w /\ fs w' = fs w /\
  match r with Err _ => w' = w | Ok _ => True end.
Proof.
  unfold build_calculation. unfold_monad.
  repeat (simpl; match goal with
                 | |- context [match ?x with Ok _ => _ | Err _ => _ end] => destruct x
                 | |- context [match ?x with (_, _) => _ end] => destruct x
                 | |- context [match ?e with OperationError _ => _ | _ => _ end] => destruct e
                 end);
  intros [= <- <-]; simpl; auto.
Qed.

Lemma update_frame (o : observer) (c : Calculation) (w : world) :
  exists w', update o c w = (Ok tt, w') /\ calculator w' = calculator w.
Proof.
  destruct o as [id [|target]]; unfold update; simpl; unfold_monad.
  - eauto.
  - repeat case_match; simplify_eq; simpl; eauto.
Qed.

Lemma notify_each_frame (obs : list observer) (c : Calculation) (w : world) :
  exists w', notify_each obs c w = (Ok tt, w') /\ calculator w' = calculator w.
Proof.
  revert w. induction obs as [|o obs IH]; intros w; simpl.
  - unfold ret. eauto.
  - unfold bind, try_except.
    destruct (update_frame o c w) as (w1 & -> & E1).
    destruct (IH w1) as (w2 & -> & E2). exists w2. split; [done|congruence].
Qed.

Lemma commit_calculation_spec (c : Calculation) (w : world) :
  exists w', commit_calculation c w = (Ok tt, w') /\
             calculator w' = committed (calculator w) c.
Proof.
  unfold commit_calculation, notify_observers. unfold_monad. simpl.
  match goal with
  | |- context [notify_each ?obs ?c ?w0] =>
      destruct (notify_each_frame obs c w0) as (w2 & -> & E)
  end.
  exists w2. split; [done|]. rewrite E. reflexivity.
Qed.

Lemma calculate_spec (o : string) (a b : pyval F) (w : world) r w' :
  calculate o a b w = (r, w') ->
  (exists e, r = Err e /\ w' = w) \/
  (exists c w1, build_calculation o a b w = (Ok c, w1) /\ r = Ok (result c) /\
                calculator w' = committed (calculator w) c).
Proof.
  unfold calculate. unfold bind at 1.
  destruct (build_calculation o a b w) as [[c|e] w1] eqn:Eb.
  - destruct (build_calculation_frame _ _ _ _ _ _ Eb) as (Ec & _ & _).
    unfold bind, ret.
    destruct (commit_calculation_spec c w1) as (w2 & -> & E2).
    intros [= <- <-]. right. exists c, w1. rewrite E2, Ec. auto.
  - destruct (build_calculation_frame _ _ _ _ _ _ Eb) as (_ & _ & ->).
    intros [= <- <-]. left. eauto.
Qed.

Lemma tl_drop {A} (k : nat) (l : list A) : tl (drop k l) = drop (S k) l.
Proof. revert l. induction k as [|k IH]; intros [|x l]; simpl; auto. Qed.

Lemma to_nat_cases (m : Z) :
  (0 <= m /\ Z.of_nat (Z.to_nat m) = m)%Z \/ (m < 0 /\ Z.to_nat m = 0%nat)%Z.
Proof. destruct (Z.le_gt_cases 0 m); [left; split; [lia|apply Z2Nat.id; lia]|right; lia]. Qed.

(** [add] keeps the window of the [max_size] most recent records. *)
Lemma add_lastn (hm : HistoryManager (F := F)) (l : list Calculation) (c : Calculation) :
  hm_history hm = lastn (Z.to_nat (max_size hm)) l ->
  hm_history (add hm c) = lastn (Z.to_nat (max_size hm)) (l ++ [c]).
Proof.
  unfold add, lastn. simpl. intros ->.
  set (m := Z.to_nat (max_size hm)).
  rewrite <- drop_app_le by lia.
  rewrite length_drop, length_app. simpl.
  destruct (Z.gtb (Z.of_nat _) (max_size hm)) eqn:E.
  - rewrite Z.gtb_ltb, Z.ltb_lt in E. rewrite tl_drop. f_equal.
    destruct (to_nat_cases (max_size hm)) as [[? ?]|[? ?]]; unfold m in *; lia.
  - rewrite Z.gtb_ltb, Z.ltb_ge in E. f_equal.
    destruct (to_nat_cases (max_size hm)) as [[? ?]|[? ?]]; unfold m in *; lia.
Qed.

Lemma calculate_each_window (calls : list (string * pyval F * pyval F)) (w : world)
    (l recs : list Calculation) w' :
  calculate_each calls w = (Ok recs, w') ->
  hm_history (history_manager (calculator w))
    = lastn (Z.to_nat (max_size (history_manager (calculator w)))) l ->
  length recs = length calls /\
  max_size (history_manager (calculator w')) = max_size (history_manager (calculator w)) /\
  hm_history (history_manager (calculator w'))
    = lastn (Z.to_nat (max_size (history_manager (calculator w)))) (l ++ recs).
Proof.
  revert w l recs. induction calls as [|[[o a] b] calls IH]; intros w l recs; simpl.
  - unfold ret. intros [= <- <-] Hw. rewrite app_nil_r. auto.
  - unfold bind at 1.
    destruct (build_calculation o a b w) as [[c|e] w1] eqn:Eb; [|intros [=]].
    destruct (build_calculation_frame _ _ _ _ _ _ Eb) as (E1 & _ & _).
    unfold bind at 1.
    destruct (commit_calculation_spec c w1) as (w2 & -> & E2).
    unfold bind.
    destruct (calculate_each calls w2) as [[cs|e] w3] eqn:Ec; [|intros [=]].
    unfold ret. intros [= <- <-] Hw.
    assert (Hw2 : hm_history (history_manager (calculator w2))
                  = lastn (Z.to_nat (max_size (history_manager (calculator w2)))) (l ++ [c])).
    { rewrite E2, E1. simpl. apply add_lastn. exact Hw. }
    destruct (IH w2 (l ++ [c])%list cs Ec Hw2) as (Hlen & Hmax & Hh).
    rewrite E2, E1 in Hmax, Hh. simpl in Hmax, Hh.
    split; [simpl; lia|]. split; [done|].
    rewrite Hh, <- app_assoc. reflexivity.
Qed.

(** C1 (amended). After N successful [calculate] calls on a fresh
    calculator with configured size M, the history holds exactly the
    records of the last max(M, 0) calls, oldest first, so its length is
    min(N, max(M, 0)); for M >= 0 that is min(N, M). *)
Theorem calculate_history_window (cfg : CalculatorConfig) (fs0 : filesystem) (t : Z)
    (calls : list (string * pyval F * pyval F)) (recs : list Calculation) (w : world) :
  calculate_each calls (fresh_world cfg fs0 t) = (Ok recs, w) ->
  length recs = length calls /\
  get_all (history_manager (calculator w)) = lastn (Z.to_nat (max_history_size cfg)) recs /\
  length (get_all (history_manager (calculator w)))
    = Nat.min (length calls) (Z.to_nat (max_history_size cfg)).
Proof.
  intros Hrun.
  destruct (calculate_each_window calls _ [] recs w Hrun) as (Hlen & _ & Hh).
  { reflexivity. }
  simpl in Hh. unfold get_all. rewrite Hh.
  split; [done|]. split; [done|].
  unfold lastn. rewrite length_drop. lia.
Qed.

(** C2. When an undo is possible, [undo()] followed by [redo()] both
    succeed and give back the history (and the undo/redo stacks) as they
    were before the undo. *)
Theorem undo_redo_roundtrip (w : world) :
  can_undo (caretaker (calculator w)) = true ->
  exists w1 w2,
    undo w = (Ok true, w1) /\ redo w1 = (Ok true, w2) /\
    get_all (history_manager (calculator w2)) = get_all (history_manager (calculator w)) /\
    caretaker (calculator w2) = caretaker (calculator w).
Proof.
  intros Hu. unfold undo. unfold_monad. rewrite Hu. simpl.
  unfold can_undo in Hu. unfold ct_undo.
  destruct (undo_stack (caretaker (calculator w))) as [|prev rest] eqn:Eu;
    [simpl in Hu; discriminate|].
  eexists; eexists. split; [reflexivity|].
  unfold redo. unfold_monad. simpl. split; [reflexivity|].
  simpl. split; [reflexivity|].
  destruct (caretaker (calculator w)) as [us rs]. simpl in *. subst us. reflexivity.
Qed.

(** C3. A successful [calculate] and every [clear_history] leave the redo
    stack empty: [can_redo()] is false right after them. *)
Theorem state_change_clears_redo :
  (forall (o : string) (a b : pyval F) (w : world) (r : F) w',
     calculate o a b w = (Ok r, w') -> can_redo (caretaker (calculator w')) = false) /\
  (forall (w : world) w',
     clear_history w = (Ok tt, w') -> can_redo (caretaker (calculator w')) = false).
Proof.
  split.
  - intros o a b w r w' Hc.
    destruct (calculate_spec o a b w _ _ Hc) as [(e & [=] & _)|(c & w1 & _ & _ & ->)].
    reflexivity.
  - intros w w'. unfold clear_history. unfold_monad. intros [= <-]. reflexivity.
Qed.

(** C4 (amended). For operands that pass input validation, with a divisor
    equal to zero, [calculate] with divide, modulus, int_divide or percent
    raises an OperationError and leaves the whole calculator state, history
    included, unchanged. *)
Theorem zero_divisor_operation_error (o : string) (w : world) (a b : pyval F) (x y : F) :
  In o ["divide"; "modulus"; "int_divide"; "percent"] ->
  validate_number (config (calculator w)) a = Ok x ->
  validate_number (config (calculator w)) b = Ok y ->
  f_eq y f_zero = true ->
  exists msg, calculate o a b w = (Err (OperationError msg), w).
Proof.
  intros Ho Ha Hb Hy.
  unfold calculate, build_calculation, validate_operands. unfold_monad.
  rewrite Ha, Hb.
  destruct Ho as [<-|[<-|[<-|[<-|[]]]]]; simpl; rewrite Hy; eexists; reflexivity.
Qed.

(** C6 (amended). A root of degree zero always fails with an
    OperationError.  Its message is "Root degree cannot be zero" unless
    [a < 0] and [b % 2 == 0] hold (as they do for every negative [a], since
    [0 % 2 == 0]), in which case the even-root check, which comes first,
    reports "Cannot compute even root of negative number"; that check fails
    every root with [a < 0] and [b % 2 == 0], the degree zero included. *)
Theorem root_zero_degree_or_even_negative (a b : F) :
  f_eq b f_zero = true \/ (f_lt a f_zero && f_eq (f_mod b f_two) f_zero) = true ->
  execute RootOperation a b
  = Err (OperationError
           (if f_lt a f_zero && f_eq (f_mod b f_two) f_zero
            then "Cannot compute even root of negative number"
            else "Root degree cannot be zero")).
Proof.
  intros Hb. simpl.
  destruct (f_lt a f_zero && f_eq (f_mod b f_two) f_zero) eqn:E; [reflexivity|].
  destruct Hb as [Hb|Hb]; [|discriminate]. rewrite Hb. reflexivity.
Qed.

(** C9. Loading from a path with no file returns an empty list, raises
    nothing and changes nothing. *)
Theorem load_missing_file (w : world) (p : string) :
  files (fs w) p = None -> load_history (Some p) w = (Ok [], w).
Proof.
  intros Hp. unfold load_history, load_from_csv. unfold_monad. simpl.
  rewrite Hp. simpl.
  destruct w as [[cfg hm ct obs] fs0 t]. reflexivity.
Qed.

(** C10. A [calculate] call that raises (a ValidationError, an
    OperationError or any other exception) leaves the world as it was:
    undo and redo stacks, history, files and clock. *)
Theorem calculate_error_no_snapshot (o : string) (a b : pyval F) (w : world) (e : exn) w' :
  calculate o a b w = (Err e, w') ->
  caretaker (calculator w') = caretaker (calculator w) /\
  history_manager (calculator w') = history_manager (calculator w) /\ w' = w.
Proof.
  intros Hc.
  destruct (calculate_spec o a b w _ _ Hc) as [(e' & _ & ->)|(c & w1 & _ & [=] & _)].
  auto.
Qed.

End Proofs.

(** ** Properties of [get_all] with object identity *)

Module AliasingProofs.
Import Aliasing.
Section Heap.
Context {F : Type}.
Local Abbreviation heap := (@heap F).

Lemma mapM_pointwise {A B} (f g : A -> option B) (l : list A) :
  (forall x, f x = g x) -> mapM f l = mapM g l.
Proof. intros Hfg. induction l as [|x l IH]; simpl; [done|]. by rewrite Hfg, IH. Qed.

Lemma lookup_store_eq (h : heap) l o : objs (store h l o) !! l = Some o.
Proof. unfold store. simpl. apply lookup_insert_eq. Qed.

Lemma lookup_store_ne (h : heap) l k o : k <> l -> objs (store h l o) !! k = objs h !! k.
Proof. intros Hk. unfold store. simpl. by apply lookup_insert_ne. Qed.

(** Mutations of a list object touch that object only, and it stays a list. *)
Lemma caller_run_list_only (ops : list caller_op) (l : nat) (h1 h2 : heap) :
  (exists es, objs h1 !! l = Some (OList es)) ->
  forallb list_only ops = true ->
  caller_run h1 l ops = Some h2 ->
  (exists es, objs h2 !! l = Some (OList es)) /\
  (forall k, k <> l -> objs h2 !! k = objs h1 !! k).
Proof.
  revert h1. induction ops as [|op ops IH]; intros h1 [es Hl] Hops; simpl.
  - intros [= <-]. eauto.
  - simpl in Hops. apply andb_prop in Hops as [Hop Hops].
    destruct op as [lop|]; [|discriminate].
    unfold caller_apply. rewrite Hl.
    destruct (list_op_apply lop es) as [es'|]; [|discriminate].
    intros Hrun.
    destruct (IH (store h1 l (OList es'))) as [Hl2 Hk2]; auto.
    { rewrite lookup_store_eq. eauto. }
    split; [done|]. intros k Hk. rewrite Hk2 by done. by apply lookup_store_ne.
Qed.

(** C7 (amended). [get_all] returns a new list object: whatever the
    caller does to that list (append, pop, item assignment, clear), the
    history list and the records it refers to are unchanged. *)
Theorem get_all_list_copy_isolated (h : heap) (history : nat) (es : list nat)
    (l : nat) (h1 h2 : heap) (ops : list caller_op) :
  heap_wf h ->
  objs h !! history = Some (OList es) ->
  hm_get_all h history = Some (l, h1) ->
  forallb list_only ops = true ->
  caller_run h1 l ops = Some h2 ->
  l <> history /\ view h2 history = view h history.
Proof.
  intros Hwf Hh Hget Hops Hrun.
  unfold hm_get_all in Hget. rewrite Hh in Hget. injection Hget as <- <-.
  assert (Hfresh : objs h !! next h = None).
  { destruct (objs h !! next h) eqn:E; [|done]. apply Hwf in E. lia. }
  assert (Hne : next h <> history).
  { intros Heq. rewrite Heq, Hh in Hfresh. discriminate. }
  assert (Hl1 : exists es0, objs {| objs := <[next h := OList es]> (objs h);
                                   next := S (next h) |} !! next h = Some (OList es0)).
  { eexists. simpl. apply lookup_insert_eq. }
  destruct (caller_run_list_only _ _ _ _ Hl1 Hops Hrun) as [[es2 Hl2] Hk2].
  assert (Hk : forall k, k <> next h -> objs h2 !! k = objs h !! k).
  { intros k Hk. rewrite Hk2 by done. simpl. by apply lookup_insert_ne. }
  split; [done|].
  unfold view. rewrite Hk by congruence. rewrite Hh.
  apply mapM_pointwise. intros r.
  destruct (decide (r = next h)) as [->|Hr].
  - by rewrite Hl2, Hfresh.
  - by rewrite Hk.
Qed.

End Heap.
End AliasingProofs.

(** ** Further properties of the engine and the orchestrator *)

Section Extras.
Context {F : Type} `{PyFloat F}.
Local Abbreviation Calculation := (@Calculation F).
Local Abbreviation world := (@world F).

Ltac unfold_m :=
  unfold lift, bind, ret, raise, get_calc, put_calc, get_world, put_world,
    try_except, datetime_now in *.


Lemma table_lookup_In (k : string) (t : list (string * Operation)) (v : Operation) :
  table_lookup k t = Some v -> In (k, v) t.
Proof.
  induction t as [|[k' v'] t IH]; simpl; [discriminate|].
  destruct (String.eqb_spec k k') as [->|_]; [intros [= ->]; auto|auto].
Qed.

(** [OperationFactory.create(name)] returns an operation exactly when
    [name.lower()] is that operation's symbol, and
    [get_available_operations()] lists the ten symbols in order. *)
Theorem create_iff_symbol :
  (forall (s : string) (op : Operation), create s = Ok op <-> lower s = get_symbol op) /\
  get_available_operations
  = map get_symbol [AddOperation; SubtractOperation; MultiplyOperation; DivideOperation;
                    PowerOperation; RootOperation; ModulusOperation; IntDivideOperation;
                    PercentOperation; AbsDiffOperation].
Proof.
  split; [|reflexivity].
  intros s op. unfold create. split.
  - destruct (table_lookup (lower s) operations_table) as [o|] eqn:E; [|discriminate].
    intros [= <-]. apply table_lookup_In in E. simpl in E.
    repeat (destruct E as [E|E]; [injection E as E1 E2; subst o; rewrite <- E1; reflexivity|]).
    contradiction.
  - intros ->. destruct op; reflexivity.
Qed.

Lemma validate_operation_norm (s : string) :
  validate_operation s
  = if String.eqb (lower (strip s)) ""
    then Err (ValidationError "Operation name cannot be empty")
    else Ok (lower (strip s)).
Proof. unfold validate_operation. destruct (strip s); reflexivity. Qed.

(** [calculate] reads the operation name only through
    [name.strip().lower()]: two names equal after stripping and
    lowercasing give the same outcome and the same new state. *)
Theorem calculate_operation_name_normalised (s1 s2 : string) (a b : pyval F) (w : world) :
  lower (strip s1) = lower (strip s2) -> calculate s1 a b w = calculate s2 a b w.
Proof.
  intros E. unfold calculate, build_calculation.
  rewrite !validate_operation_norm, E. reflexivity.
Qed.

Lemma build_calculation_ok (o : string) (a b : pyval F) (w : world) (c : Calculation) w' :
  build_calculation o a b w = (Ok c, w') ->
  validate_operation o = Ok (operation c) /\
  validate_operands (config (calculator w)) a b = Ok (operand1 c, operand2 c) /\
  exists op r0, create (operation c) = Ok op /\
    execute op (operand1 c) (operand2 c) = Ok r0 /\
    result c = f_round r0 (precision (config (calculator w))) /\
    timestamp c = TDatetime (clock w).
Proof.
  unfold build_calculation. unfold_m. simpl.
  destruct (validate_operation o) as [n|e] eqn:Ev; simpl; [|intros [=]].
  destruct (validate_operands (config (calculator w)) a b) as [[x y]|e] eqn:Eo;
    simpl; [|intros [=]].
  destruct (create n) as [op|e] eqn:Ec; simpl; [|intros [=]].
  destruct (execute op x y) as [r0|e] eqn:Ex; simpl; [|destruct e; intros [=]].
  intros [= <- <-]. simpl. split; [done|]. split; [done|]. eauto 10.
Qed.

Lemma add_last (hm : HistoryManager (F := F)) (c : Calculation) :
  (1 <= max_size hm)%Z -> last (hm_history (add hm c)) = Some c.
Proof.
  intros Hm. unfold add. simpl.
  destruct (Z.gtb _ _) eqn:E; [|apply last_snoc].
  rewrite Z.gtb_ltb, Z.ltb_lt in E.
  destruct (hm_history hm) as [|x l]; simpl in *; [lia|apply last_snoc].
Qed.

(** After a successful [calculate] on a history manager of size at least
    one, the last history record carries the stripped, lowercased
    operation name, the validated operands, and the result of the
    operation rounded to the configured precision; [calculate] returns
    that rounded result. *)
Theorem calculate_appends_result (o : string) (a b : pyval F) (w : world) (r : F) w' :
  calculate o a b w = (Ok r, w') ->
  (1 <= max_size (history_manager (calculator w)))%Z ->
  exists c, last (get_all (history_manager (calculator w'))) = Some c /\
    result c = r /\
    validate_operation o = Ok (operation c) /\
    validate_operands (config (calculator w)) a b = Ok (operand1 c, operand2 c) /\
    exists op r0, create (operation c) = Ok op /\
      execute op (operand1 c) (operand2 c) = Ok r0 /\
      r = f_round r0 (precision (config (calculator w))).
Proof.
  intros Hc Hm.
  destruct (calculate_spec o a b w _ _ Hc) as [(e & [=] & _)|(c & w1 & Eb & [= Er] & Ec)].
  destruct (build_calculation_ok _ _ _ _ _ _ Eb) as (Hv & Ho & op & r0 & Hcr & Hx & Hr & _).
  exists c. unfold get_all. rewrite Ec. simpl.
  split; [apply add_last; exact Hm|].
  split; [done|]. split; [done|]. split; [done|].
  exists op, r0. rewrite Er. auto.
Qed.

(** A successful [calculate] can be undone: the following [undo] returns
    True and restores the history and the undo stack from before the
    call, with the post-call history as the only redo entry. *)
Theorem calculate_then_undo (o : string) (a b : pyval F) (w : world) (r : F) w' :
  calculate o a b w = (Ok r, w') ->
  exists w'', undo w' = (Ok true, w'') /\
    get_all (history_manager (calculator w'')) = get_all (history_manager (calculator w)) /\
    undo_stack (caretaker (calculator w'')) = undo_stack (caretaker (calculator w)) /\
    redo_stack (caretaker (calculator w''))
    = [get_all (history_manager (calculator w'))].
Proof.
  intros Hc.
  destruct (calculate_spec o a b w _ _ Hc) as [(e & [=] & _)|(c & w1 & _ & _ & Ec)].
  unfold undo. unfold_m. rewrite Ec. simpl.
  eexists. split; [reflexivity|]. simpl. auto.
Qed.

(** [clear_history()] empties the history and can be undone: the next
    [undo] returns True and restores the history and undo stack from
    before the clear, leaving the empty history on the redo stack. *)
Theorem clear_history_undoable (w : world) :
  exists w' w'', clear_history w = (Ok tt, w') /\
    get_all (history_manager (calculator w')) = [] /\
    undo w' = (Ok true, w'') /\
    get_all (history_manager (calculator w'')) = get_all (history_manager (calculator w)) /\
    undo_stack (caretaker (calculator w'')) = undo_stack (caretaker (calculator w)) /\
    redo_stack (caretaker (calculator w'')) = [[]].
Proof.
  unfold clear_history, undo. unfold_m. simpl.
  do 2 eexists. split; [reflexivity|]. simpl. split; [reflexivity|].
  split; [reflexivity|]. simpl. auto.
Qed.


(** When a redo is possible, [redo()] followed by [undo()] both return
    True and give back the history and the undo/redo stacks as they were
    before the redo. *)
Theorem redo_undo_roundtrip (w : world) :
  can_redo (caretaker (calculator w)) = true ->
  exists w1 w2,
    redo w = (Ok true, w1) /\ undo w1 = (Ok true, w2) /\
    get_all (history_manager (calculator w2)) = get_all (history_manager (calculator w)) /\
    caretaker (calculator w2) = caretaker (calculator w).
Proof.
  intros Hr. unfold redo. unfold_m. rewrite Hr. simpl.
  unfold can_redo in Hr. unfold ct_redo.
  destruct (redo_stack (caretaker (calculator w))) as [|nxt rest] eqn:Er;
    [simpl in Hr; discriminate|].
  eexists; eexists. split; [reflexivity|].
  unfold undo. unfold_m. simpl. split; [reflexivity|].
  simpl. split; [reflexivity|].
  destruct (caretaker (calculator w)) as [us rs]. simpl in *. subst rs. reflexivity.
Qed.

(** [undo()] and [redo()] move one snapshot between the two stacks, so
    the total number of snapshots stays the same; when they return False
    the state is unchanged, and they never touch the configuration,
    observers, files or clock. *)
Theorem undo_redo_conserve_snapshots (w w' : world) (b : bool) :
  undo w = (Ok b, w') \/ redo w = (Ok b, w') ->
  (length (undo_stack (caretaker (calculator w')))
   + length (redo_stack (caretaker (calculator w')))
   = length (undo_stack (caretaker (calculator w)))
     + length (redo_stack (caretaker (calculator w))))%nat /\
  (b = false -> w' = w) /\
  config (calculator w') = config (calculator w) /\
  observers (calculator w') = observers (calculator w) /\
  fs w' = fs w /\ clock w' = clock w.
Proof.
  destruct w as [[cfg hm [us rs] obs] fs0 t].
  intros [Hu|Hr].
  - revert Hu. unfold undo, can_undo, ct_undo. unfold_m. simpl.
    destruct us as [|prev us]; simpl; intros [= <- <-]; simpl; repeat split; try lia;
      discriminate.
  - revert Hr. unfold redo, can_redo, ct_redo. unfold_m. simpl.
    destruct rs as [|nxt rs]; simpl; intros [= <- <-]; simpl; repeat split; try lia;
      discriminate.
Qed.

Lemma add_bounded (hm : HistoryManager (F := F)) (c : Calculation) :
  (length (hm_history hm) <= Z.to_nat (max_size hm))%nat ->
  (length (hm_history (add hm c)) <= Z.to_nat (max_size hm))%nat.
Proof.
  intros Hl.
  assert (Hw : hm_history hm = lastn (Z.to_nat (max_size hm)) (hm_history hm)).
  { unfold lastn. replace (length (hm_history hm) - Z.to_nat (max_size hm))%nat with 0%nat
      by lia. reflexivity. }
  rewrite (add_lastn hm (hm_history hm) c Hw). unfold lastn.
  rewrite length_drop. lia.
Qed.

(** A new calculator is bounded (history and every snapshot hold at most
    max(max_size, 0) records), and [calculate], [undo], [redo] and
    [clear_history] keep it bounded, whether they succeed or raise. *)
Theorem bounded_invariant :
  (forall cfg : CalculatorConfig (F := F), bounded (new_calculator cfg)) /\
  (forall w : world, bounded (calculator w) ->
     (forall o a b r w', calculate o a b w = (r, w') -> bounded (calculator w')) /\
     (forall r w', undo w = (r, w') -> bounded (calculator w')) /\
     (forall r w', redo w = (r, w') -> bounded (calculator w')) /\
     (forall r w', clear_history w = (r, w') -> bounded (calculator w'))).
Proof.
  split.
  - intros cfg. unfold bounded. simpl. split; [lia|split; constructor].
  - intros w Hb. destruct w as [[cfg hm [us rs] obs] fs0 t].
    destruct Hb as (Hh & Hu & Hr). simpl in Hh, Hu, Hr.
    split; [|split; [|split]].
    + intros o a b r w' Hc.
      destruct (calculate_spec o a b _ _ _ Hc) as [(e & _ & ->)|(c & w1 & _ & _ & Ec)].
      * unfold bounded. simpl. auto.
      * unfold bounded. rewrite Ec. simpl.
        split; [apply add_bounded; exact Hh|].
        split; [constructor; [exact Hh|exact Hu]|constructor].
    + intros r w'. unfold undo, can_undo, ct_undo. unfold_m. simpl.
      destruct us as [|prev us]; simpl; intros [= <- <-]; unfold bounded; simpl.
      * auto.
      * inversion Hu; subst. split; [done|]. split; [done|]. constructor; done.
    + intros r w'. unfold redo, can_redo, ct_redo. unfold_m. simpl.
      destruct rs as [|nxt rs]; simpl; intros [= <- <-]; unfold bounded; simpl.
      * auto.
      * inversion Hr; subst. split; [done|]. split; [constructor; done|done].
    + intros r w'. unfold clear_history. unfold_m. simpl. intros [= <- <-].
      unfold bounded. simpl. split; [lia|]. split; [constructor; done|constructor].
Qed.

(** [load_history] never touches the undo/redo stacks, the configuration,
    the observers, the files or the clock, and keeps [max_size].  When it
    raises, nothing changes; when it returns a list, the history is that
    list, or the list is empty and the history is unchanged (no file, or
    an empty file). *)
Theorem load_history_frame (p : option string) (w : world) r w' :
  load_history p w = (r, w') ->
  caretaker (calculator w') = caretaker (calculator w) /\
  config (calculator w') = config (calculator w) /\
  observers (calculator w') = observers (calculator w) /\
  fs w' = fs w /\ clock w' = clock w /\
  max_size (history_manager (calculator w')) = max_size (history_manager (calculator w)) /\
  match r with
  | Err _ => w' = w
  | Ok l => get_all (history_manager (calculator w')) = l \/
            (l = [] /\ history_manager (calculator w') = history_manager (calculator w))
  end.
Proof.
  unfold load_history, load_from_csv. unfold_m. simpl.
  destruct (files (fs w) _) as [[|cols rows|m]|] eqn:Ef; simpl.
  - intros [= <- <-]. simpl. auto 10.
  - destruct (has_columns cols); simpl; intros [= <- <-]; simpl; auto 10.
  - intros [= <- <-]. auto 10.
  - intros [= <- <-]. simpl. auto 10.
Qed.


End Extras.

(** ** Binary64 remainder: the sign of [a % b] *)
Module Binary64Proofs.
Import Binary64 SpecFloat.
Local Open Scope Z_scope.

Lemma digits2_pos_size (p : positive) : digits2_pos p = Pos.size p.
Proof. induction p; simpl; congruence. Qed.

Lemma size_bound (p : positive) :
  2 ^ (Zpos (Pos.size p) - 1) <= Zpos p < 2 ^ Zpos (Pos.size p).
Proof.
  pose proof (Pos.size_gt p) as Hgt. pose proof (Pos.size_le p) as Hle.
  apply Pos2Z.pos_lt_pos in Hgt. apply Pos2Z.pos_le_pos in Hle.
  rewrite Pos2Z.inj_pow in Hgt, Hle. rewrite (Pos2Z.inj_xO p) in Hle.
  split; [|exact Hgt].
  assert (E : 2 ^ Zpos (Pos.size p) = 2 * 2 ^ (Zpos (Pos.size p) - 1)).
  { rewrite <- Z.pow_succ_r by lia. f_equal. lia. }
  lia.
Qed.

Lemma iter_xO_value (m d : positive) :
  Zpos (Pos.iter xO m d) = Zpos m * 2 ^ Zpos d.
Proof.
  induction d as [|d IH] using Pos.peano_ind.
  - simpl. lia.
  - rewrite Pos.iter_succ, Pos2Z.inj_succ, Z.pow_succ_r by lia.
    rewrite Pos2Z.inj_xO, IH. lia.
Qed.

Lemma iter_xO_size (m d : positive) :
  Zpos (Pos.size (Pos.iter xO m d)) = Zpos (Pos.size m) + Zpos d.
Proof.
  induction d as [|d IH] using Pos.peano_ind.
  - simpl. lia.
  - rewrite Pos.iter_succ. simpl. rewrite Pos2Z.inj_succ, IH. lia.
Qed.

Lemma shl_align_value (m : positive) (e ez : Z) :
  ez <= e -> Zpos (fst (shl_align m e ez)) = Zpos m * 2 ^ (e - ez).
Proof.
  intros H. unfold shl_align.
  destruct (ez - e) eqn:E; simpl.
  - replace (e - ez) with 0 by lia. lia.
  - lia.
  - rewrite iter_xO_value. f_equal. f_equal. lia.
Qed.

(** A finite binary64 number: mantissa below [2^53], exponent in range. *)
Lemma valid_finite_bounds (s : bool) (m : positive) (e : Z) :
  valid_binary prec emax (S754_finite s m e) = true ->
  Zpos m < 2 ^ 53 /\ -1074 <= e <= 971.
Proof.
  unfold valid_binary, SpecFloat.bounded, canonical_mantissa, fexp, emin, prec, emax.
  rewrite digits2_pos_size.
  intros H. apply andb_prop in H as [H1 H2].
  apply Z.eqb_eq in H1. apply Z.leb_le in H2.
  pose proof (size_bound m) as [_ Hs].
  split; [|lia].
  eapply Z.lt_le_trans; [exact Hs|]. apply Z.pow_le_mono_r; lia.
Qed.

(** Rounding is the identity on a canonical mantissa. *)
Lemma binary_round_aux_exact (s : bool) (m : positive) (e : Z) :
  fexp prec emax (Zpos (digits2_pos m) + e) = e -> e <= 971 ->
  binary_round_aux prec emax s (Zpos m) e loc_Exact = S754_finite s m e.
Proof.
  intros Hc He. unfold binary_round_aux, shr_fexp. simpl Zdigits2.
  rewrite Hc, Z.sub_diag. simpl. rewrite Hc, Z.sub_diag. simpl.
  unfold emax, prec. replace (e <=? 1024 - 53) with true by lia. reflexivity.
Qed.

(** Rounding a number of at most 53 bits is exact. *)
Lemma binary_round_exact (s : bool) (r : positive) (e : Z) :
  Zpos r < 2 ^ 53 -> -1074 <= e <= 971 ->
  exists m e', binary_round prec emax s r e = S754_finite s m e' /\
    e' <= e /\ Zpos m = Zpos r * 2 ^ (e - e').
Proof.
  intros Hr He. pose proof (size_bound r) as [Hs1 Hs2].
  assert (Hd : Zpos (Pos.size r) <= 53).
  { destruct (Z.le_gt_cases (Zpos (Pos.size r)) 53) as [|Hc]; [lia|].
    assert (2 ^ 53 <= 2 ^ (Zpos (Pos.size r) - 1)) by (apply Z.pow_le_mono_r; lia). lia. }
  unfold binary_round. rewrite digits2_pos_size.
  set (f := fexp prec emax (Zpos (Pos.size r) + e)).
  assert (Hf : f <= e /\ f = Z.max (Zpos (Pos.size r) + e - 53) (-1074)).
  { unfold f, fexp, emin, prec, emax. lia. }
  unfold shl_align. destruct (f - e) as [|d|d] eqn:Efe.
  - exists r, e. rewrite binary_round_aux_exact.
    + repeat split; try lia. replace (e - e) with 0 by lia. lia.
    + rewrite digits2_pos_size. unfold fexp, emin, prec, emax in *. lia.
    + lia.
  - lia.
  - exists (Pos.iter xO r d), f. rewrite binary_round_aux_exact.
    + repeat split; try lia. rewrite iter_xO_value. f_equal. f_equal. lia.
    + rewrite digits2_pos_size, iter_xO_size. unfold fexp, emin, prec, emax in *. lia.
    + lia.
Qed.


Lemma shr_1_nonneg (r : shr_record) : 0 <= shr_m r -> 0 <= shr_m (shr_1 r).
Proof. destruct r as [m rr ss]; destruct m as [|[p|p|]|p]; simpl; lia. Qed.

Lemma iter_shr_1_nonneg (p : positive) (r : shr_record) :
  0 <= shr_m r -> 0 <= shr_m (iter_pos shr_1 p r).
Proof.
  revert r; induction p as [p IH|p IH|]; intros r Hr; simpl;
    auto using shr_1_nonneg.
Qed.

Lemma shr_fexp_nonneg (m e : Z) (l : location) (r : shr_record) (e' : Z) :
  shr_fexp prec emax m e l = (r, e') -> 0 <= m -> 0 <= shr_m r.
Proof.
  intros E Hm. unfold shr_fexp, shr in E.
  assert (H0 : 0 <= shr_m (shr_record_of_loc m l)) by (destruct l as [|[]]; simpl; lia).
  destruct (fexp prec emax (Zdigits2 m + e) - e); inversion E; subst;
    auto using iter_shr_1_nonneg.
Qed.

Lemma round_nearest_even_nonneg (m : Z) (l : location) :
  0 <= m -> 0 <= round_nearest_even m l.
Proof. intros H. destruct l as [|[]]; simpl; try destruct (Z.even m); lia. Qed.

(** The sign of a result that is not a NaN. *)
Definition signed (s : bool) (x : spec_float) : Prop :=
  match x with
  | S754_zero s' | S754_infinity s' | S754_finite s' _ _ => s' = s
  | S754_nan => False
  end.

(** Rounding never produces a NaN and keeps the sign. *)
Lemma binary_round_signed (s : bool) (m : positive) (e : Z) :
  signed s (binary_round prec emax s m e).
Proof.
  unfold binary_round.
  destruct (shl_align m e _) as [mz ez].
  unfold binary_round_aux.
  destruct (shr_fexp prec emax (Zpos mz) ez loc_Exact) as [r1 e1] eqn:E1.
  destruct (shr_fexp prec emax (round_nearest_even (shr_m r1) (loc_of_shr_record r1)) e1 loc_Exact)
    as [r2 e2] eqn:E2.
  assert (H1 : 0 <= shr_m r1) by (eapply shr_fexp_nonneg; [exact E1 | lia]).
  assert (H2 : 0 <= shr_m r2)
    by (eapply shr_fexp_nonneg; [exact E2 | apply round_nearest_even_nonneg; exact H1]).
  destruct (shr_m r2) as [|p|p]; simpl; [reflexivity| |lia].
  destruct (e2 <=? emax - prec); reflexivity.
Qed.

Lemma binary_normalize_pos (z e : Z) :
  0 < z -> signed false (binary_normalize prec emax z e false).
Proof. intros H. destruct z; [lia| |lia]. apply binary_round_signed. Qed.

Lemma binary_normalize_neg (z e : Z) :
  z < 0 -> signed true (binary_normalize prec emax z e false).
Proof. intros H. destruct z; [lia|lia|]. apply binary_round_signed. Qed.


(** Adding a number of the other sign and smaller magnitude keeps the sign of
    the larger one. *)
Lemma add_opposite_signed (sa sb : bool) (m' mb : positive) (e' eb : Z) :
  sa = negb sb -> e' <= eb -> Zpos m' < Zpos mb * 2 ^ (eb - e') ->
  signed sb (SFadd prec emax (S754_finite sa m' e') (S754_finite sb mb eb)).
Proof.
  intros Hs He Hlt. cbn [SFadd]. rewrite Z.min_l by exact He.
  rewrite (shl_align_value m' e' e'), (shl_align_value mb eb e') by lia.
  rewrite Z.sub_diag, Z.mul_1_r.
  destruct sb; subst sa; simpl cond_Zopp;
    [apply binary_normalize_neg | apply binary_normalize_pos]; lia.
Qed.

Lemma signed_nonzero (s : bool) (r : spec_float) :
  signed s r -> match r with S754_zero _ => True | _ => signed s r end.
Proof. destruct r; auto. Qed.

(** C8 (corrected).  For finite binary64 operands [a] and [b] with
    [b != 0], [ModulusOperation.execute(a, b)] returns [r = a % b], CPython's
    float remainder, and a nonzero [r] (never a NaN) carries the sign of the
    divisor [b]. *)
Theorem modulus_sign_follows_divisor (a b : spec_float) :
  valid_binary prec emax a = true -> valid_binary prec emax b = true ->
  is_finite a = true -> is_finite b = true -> SFeqb b zero = false ->
  exists r, modulus_execute a b = Ok r /\ float_rem a b = Ok r /\
    match r with
    | S754_zero _ => True
    | _ => signed (sign b) r
    end.
Proof.
  intros Va Vb Fa Fb Hb0.
  destruct b as [sb|sb| |sb mb eb]; try discriminate.
  unfold modulus_execute, float_rem. rewrite Hb0.
  destruct a as [sa|sa| |sa ma ea]; try discriminate.
  - eexists. split; [reflexivity|]. split; [reflexivity|]. exact I.
  - apply valid_finite_bounds in Va as [Hma Hea].
    apply valid_finite_bounds in Vb as [Hmb Heb].
    cbn [fmod].
    set (e := Z.min ea eb).
    set (A := Zpos ma * 2 ^ (ea - e)).
    set (B := Zpos mb * 2 ^ (eb - e)).
    assert (HA : 0 < A) by (unfold A; pose proof (Z.pow_pos_nonneg 2 (ea - e)); nia).
    assert (HB : 0 < B) by (unfold B; pose proof (Z.pow_pos_nonneg 2 (eb - e)); nia).
    destruct (Z.rem A B =? 0) eqn:ER.
    + eexists. split; [reflexivity|]. split; [reflexivity|]. exact I.
    + apply Z.eqb_neq in ER.
      set (R := Z.rem A B) in *.
      pose proof (Z.rem_bound_pos A B ltac:(lia) HB) as [HR0 HRB].
      pose proof (Z.rem_le A B ltac:(lia) HB) as HRA.
      fold R in HR0, HRB, HRA.
      assert (HR53 : Zpos (Z.to_pos R) < 2 ^ 53).
      { rewrite Z2Pos.id by lia.
        destruct (Z.min_spec ea eb) as [[_ Em]|[_ Em]].
        - assert (A = Zpos ma) by (unfold A, e; rewrite Em, Z.sub_diag; lia). lia.
        - assert (B = Zpos mb) by (unfold B, e; rewrite Em, Z.sub_diag; lia). lia. }
      assert (He : -1074 <= e <= 971) by (unfold e; lia).
      destruct (binary_round_exact sa (Z.to_pos R) e HR53 He) as (m' & e' & Er & He' & Hm').
      rewrite Z2Pos.id in Hm' by lia.
      rewrite Er.
      destruct sa, sb; cbn [SFeqb SFltb SFcompare negb xorb sign signed].
      * eexists. split; [reflexivity|]. split; [reflexivity|]. reflexivity.
      * eexists. split; [reflexivity|]. split; [reflexivity|].
        apply signed_nonzero, add_opposite_signed; [reflexivity|lia|].
        rewrite Hm'. unfold B in HRB.
        replace (eb - e') with ((eb - e) + (e - e')) by lia.
        rewrite Z.pow_add_r by lia.
        pose proof (Z.pow_pos_nonneg 2 (e - e')). nia.
      * eexists. split; [reflexivity|]. split; [reflexivity|].
        apply signed_nonzero, add_opposite_signed; [reflexivity|lia|].
        rewrite Hm'. unfold B in HRB.
        replace (eb - e') with ((eb - e) + (e - e')) by lia.
        rewrite Z.pow_add_r by lia.
        pose proof (Z.pow_pos_nonneg 2 (e - e')). nia.
      * eexists. split; [reflexivity|]. split; [reflexivity|]. reflexivity.
Qed.

(** Witness of C8: [7.0 % -2.0] is [-1.0]. *)
Lemma modulus_sign_follows_divisor_witness :
  exists r, modulus_execute seven minus_two = Ok r /\ float_rem seven minus_two = Ok r /\
    match r with
    | S754_zero _ => True
    | _ => signed (sign minus_two) r
    end.
Proof.
  apply (modulus_sign_follows_divisor seven minus_two); vm_compute; reflexivity.
Defined.

(** C8 fails for the identity [r = a - b * floor(a / b)]: [-2.0 ** -70 % 1.0]
    rounds [1 - 2 ** -70] to [1.0], while the exact floored remainder is
    [1 - 2 ** -70]. *)
Lemma modulus_floor_identity_counterexample :
  modulus_execute minus_two_pow_m70 one = Ok one /\
  ~ (to_Q one == to_Q minus_two_pow_m70
                 - to_Q one * inject_Z (Qfloor (to_Q minus_two_pow_m70 / to_Q one)))%Q.
Proof. split; vm_compute; [reflexivity|discriminate]. Qed.

End Binary64Proofs.

(** ** The claims on concrete inputs *)

Module Concrete.
Import QFloat Fixtures Aliasing AliasingProofs.

(** Witness of C1: three calls with a history of size two. *)
Lemma calculate_history_window_witness :
  match calculate_each three_calls (fresh_world (cfg_q 2) no_files 0) with
  | (Ok recs, w) =>
      length recs = length three_calls /\
      get_all (history_manager (calculator w))
        = lastn (Z.to_nat (max_history_size (cfg_q 2))) recs /\
      length (get_all (history_manager (calculator w)))
        = Nat.min (length three_calls) (Z.to_nat (max_history_size (cfg_q 2)))
  | (Err _, _) => False
  end.
Proof.
  destruct (calculate_each three_calls (fresh_world (cfg_q 2) no_files 0))
    as [[recs|e] w] eqn:E.
  - exact (calculate_history_window (cfg_q 2) no_files 0 three_calls recs w E).
  - vm_compute in E. discriminate.
Defined.

(** C1 fails for a negative configured size: one successful [calculate]
    with [CALCULATOR_MAX_HISTORY_SIZE = -1] leaves an empty history, while
    min(N, M) = min(1, -1) = -1. *)
Lemma calculate_history_window_counterexample :
  (exists r, fst (calculate "add" (VFloat 5%Q) (VFloat 3%Q) (w_fresh (-1))) = Ok r) /\
  Z.of_nat (length (get_all (history_manager (calculator
     (snd (calculate "add" (VFloat 5%Q) (VFloat 3%Q) (w_fresh (-1))))))))
  <> Z.min 1 (-1).
Proof.
  split.
  - eexists. vm_compute. reflexivity.
  - vm_compute. discriminate.
Qed.

(** Witness of C2: one calculation, then undo and redo. *)
Lemma undo_redo_roundtrip_witness :
  exists w1 w2,
    undo (snd (calculate "add" (VFloat 5%Q) (VFloat 3%Q) (w_fresh 100))) = (Ok true, w1) /\
    redo w1 = (Ok true, w2) /\
    get_all (history_manager (calculator w2))
      = get_all (history_manager (calculator
          (snd (calculate "add" (VFloat 5%Q) (VFloat 3%Q) (w_fresh 100))))) /\
    caretaker (calculator w2)
      = caretaker (calculator (snd (calculate "add" (VFloat 5%Q) (VFloat 3%Q) (w_fresh 100)))).
Proof.
  apply undo_redo_roundtrip. vm_compute. reflexivity.
Defined.

(** Witness of C3: after an undo a redo is pending; a new calculation
    drops it. *)
Lemma state_change_clears_redo_witness :
  can_redo (caretaker (calculator w_undone)) = true /\
  match calculate "add" (VFloat 1%Q) (VFloat 2%Q) w_undone with
  | (Ok r, w') => can_redo (caretaker (calculator w')) = false
  | (Err _, _) => False
  end.
Proof.
  split; [vm_compute; reflexivity|].
  destruct (calculate "add" (VFloat 1%Q) (VFloat 2%Q) w_undone) as [[r|e] w'] eqn:E.
  - exact (proj1 state_change_clears_redo _ _ _ _ r w' E).
  - vm_compute in E. discriminate.
Defined.

(** Witness of C4: [calculate('divide', 7, 0)]. *)
Lemma zero_divisor_operation_error_witness :
  exists msg, calculate "divide" (VFloat 7%Q) (VFloat 0%Q) (w_fresh 100)
              = (Err (OperationError msg), w_fresh 100).
Proof.
  apply (zero_divisor_operation_error "divide" (w_fresh 100) (VFloat 7%Q) (VFloat 0%Q)
           7%Q 0%Q).
  - simpl. left. reflexivity.
  - vm_compute. reflexivity.
  - vm_compute. reflexivity.
  - vm_compute. reflexivity.
Defined.

(** C4 fails when the dividend does not pass validation: with
    [CALCULATOR_MAX_INPUT_VALUE = 1000], [calculate('divide', 2000, 0)]
    raises a ValidationError, not an operation error. *)
Lemma zero_divisor_counterexample :
  fst (calculate "divide" (VFloat 2000%Q) (VFloat 0%Q) (w_fresh 100))
    = Err (ValidationError "Number 2000.0 exceeds maximum allowed value: 1000.0") /\
  ~ (exists msg, fst (calculate "divide" (VFloat 2000%Q) (VFloat 0%Q) (w_fresh 100))
                 = Err (OperationError msg)).
Proof.
  split.
  - vm_compute. reflexivity.
  - vm_compute. intros [msg Hm]. discriminate.
Qed.

(** C5 fails through [load_history]: with a configured size of 1, loading
    a saved history of two records yields a history of length 2. *)
Lemma load_history_exceeds_max_size :
  fst (load_history (Some "saved.csv") (fresh_world (cfg_q 1) fs_saved 0))
    = Ok [rec_add; rec_mul] /\
  length (get_all (history_manager (calculator
    (snd (load_history (Some "saved.csv") (fresh_world (cfg_q 1) fs_saved 0)))))) = 2%nat /\
  max_size (history_manager (calculator
    (snd (load_history (Some "saved.csv") (fresh_world (cfg_q 1) fs_saved 0))))) = 1%Z.
Proof. vm_compute. auto. Qed.

(** Witness of C6: [root(-4, 0)]. *)
Lemma root_zero_degree_or_even_negative_witness :
  execute RootOperation (-4)%Q 0%Q
  = Err (OperationError
           (if f_lt (-4)%Q f_zero && f_eq (f_mod 0%Q f_two) f_zero
            then "Cannot compute even root of negative number"
            else "Root degree cannot be zero")).
Proof.
  apply root_zero_degree_or_even_negative. left. reflexivity.
Defined.

(** C6 fails for a negative operand: [RootOperation().execute(-4, 0)]
    reports "Cannot compute even root of negative number". *)
Lemma root_zero_degree_counterexample :
  execute RootOperation (-4)%Q 0%Q
    = Err (OperationError "Cannot compute even root of negative number") /\
  execute RootOperation (-4)%Q 0%Q <> Err (OperationError "Root degree cannot be zero").
Proof. split; vm_compute; [reflexivity|discriminate]. Qed.

Lemma heap_one_wf : heap_wf heap_one.
Proof.
  intros l o Hl. unfold heap_one in Hl. simpl in Hl.
  rewrite !lookup_insert_Some, lookup_empty in Hl. simpl. naive_solver lia.
Qed.

(** Witness of C7: the test [test_get_all_returns_copy] appends to the
    returned list, then the caller clears it. *)
Lemma get_all_list_copy_isolated_witness :
  match hm_get_all heap_one 1 with
  | Some (l, h1) =>
      match caller_run h1 l [OnList (LAppend 0); OnList LClear] with
      | Some h2 => l <> 1 /\ view h2 1 = view heap_one 1
      | None => False
      end
  | None => False
  end.
Proof.
  destruct (hm_get_all heap_one 1) as [[l h1]|] eqn:Eg; [|vm_compute in Eg; discriminate].
  destruct (caller_run h1 l [OnList (LAppend 0); OnList LClear]) as [h2|] eqn:Er.
  - exact (get_all_list_copy_isolated heap_one 1 [0] l h1 h2
             [OnList (LAppend 0); OnList LClear] heap_one_wf eq_refl Eg eq_refl Er).
  - vm_compute in Eg. injection Eg as <- <-. vm_compute in Er. discriminate.
Defined.

(** C7 fails for the records: [get_all()[0].result = 99] changes the
    record held by the history. *)
Lemma get_all_shares_records_counterexample :
  match hm_get_all heap_one 1 with
  | Some (l, h1) =>
      match caller_run h1 l [OnRecord 0 (SetResult 99%Q)] with
      | Some h2 => view h2 1 <> view heap_one 1
      | None => False
      end
  | None => False
  end.
Proof. vm_compute. discriminate. Qed.

(** Witness of C9: [load_history('/nonexistent/path.csv')]. *)
Lemma load_missing_file_witness :
  load_history (Some "/nonexistent/path.csv") (w_fresh 100) = (Ok [], w_fresh 100).
Proof. apply load_missing_file. reflexivity. Defined.

(** Witness of C10: a division by zero after an undo. *)
Lemma calculate_error_no_snapshot_witness :
  match calculate "divide" (VFloat 7%Q) (VFloat 0%Q) w_undone with
  | (Err e, w') =>
      caretaker (calculator w') = caretaker (calculator w_undone) /\
      history_manager (calculator w') = history_manager (calculator w_undone) /\
      w' = w_undone
  | (Ok _, _) => False
  end.
Proof.
  destruct (calculate "divide" (VFloat 7%Q) (VFloat 0%Q) w_undone) as [[r|e] w'] eqn:E.
  - vm_compute in E. discriminate.
  - exact (calculate_error_no_snapshot _ _ _ _ e w' E).
Defined.

End Concrete.

(** ** Runs of the further properties on concrete inputs *)

Module ConcreteExtra.
Import QFloat Fixtures.


Lemma create_iff_symbol_witness :
  create "Int_Divide" = Ok IntDivideOperation /\ lower "Int_Divide" = "int_divide".
Proof.
  split; [|reflexivity].
  apply (proj1 create_iff_symbol). reflexivity.
Defined.

Lemma calculate_operation_name_normalised_witness :
  calculate "  ADD " (VFloat 5%Q) (VFloat 3%Q) (w_fresh 100)
  = calculate "add" (VFloat 5%Q) (VFloat 3%Q) (w_fresh 100).
Proof. apply calculate_operation_name_normalised. vm_compute. reflexivity. Defined.

Lemma calculate_appends_result_witness :
  match calculate " Power" (VFloat 2%Q) (VFloat 3%Q) (w_fresh 100) with
  | (Ok r, w') =>
      exists c, last (get_all (history_manager (calculator w'))) = Some c /\
        result c = r /\
        validate_operation " Power" = Ok (operation c) /\
        validate_operands (config (calculator (w_fresh 100))) (VFloat 2%Q) (VFloat 3%Q)
          = Ok (operand1 c, operand2 c) /\
        exists op r0, create (operation c) = Ok op /\
          execute op (operand1 c) (operand2 c) = Ok r0 /\
          r = f_round r0 (precision (config (calculator (w_fresh 100))))
  | (Err _, _) => False
  end.
Proof.
  destruct (calculate " Power" (VFloat 2%Q) (VFloat 3%Q) (w_fresh 100)) as [[r|e] w'] eqn:E.
  - apply (calculate_appends_result _ _ _ _ r w' E). vm_compute. discriminate.
  - vm_compute in E. discriminate.
Defined.

Lemma calculate_then_undo_witness :
  match calculate "multiply" (VFloat 2%Q) (VFloat 4%Q) w_undone with
  | (Ok r, w') =>
      exists w'', undo w' = (Ok true, w'') /\
        get_all (history_manager (calculator w''))
          = get_all (history_manager (calculator w_undone)) /\
        undo_stack (caretaker (calculator w'')) = undo_stack (caretaker (calculator w_undone)) /\
        redo_stack (caretaker (calculator w''))
          = [get_all (history_manager (calculator w'))]
  | (Err _, _) => False
  end.
Proof.
  destruct (calculate "multiply" (VFloat 2%Q) (VFloat 4%Q) w_undone) as [[r|e] w'] eqn:E.
  - exact (calculate_then_undo _ _ _ _ r w' E).
  - vm_compute in E. discriminate.
Defined.


Lemma redo_undo_roundtrip_witness :
  exists w1 w2,
    redo w_undone = (Ok true, w1) /\ undo w1 = (Ok true, w2) /\
    get_all (history_manager (calculator w2)) = get_all (history_manager (calculator w_undone)) /\
    caretaker (calculator w2) = caretaker (calculator w_undone).
Proof. apply redo_undo_roundtrip. vm_compute. reflexivity. Defined.

Lemma undo_redo_conserve_snapshots_witness :
  match redo w_undone with
  | (Ok b, w') =>
      (length (undo_stack (caretaker (calculator w')))
       + length (redo_stack (caretaker (calculator w')))
       = length (undo_stack (caretaker (calculator w_undone)))
         + length (redo_stack (caretaker (calculator w_undone))))%nat /\
      (b = false -> w' = w_undone) /\
      config (calculator w') = config (calculator w_undone) /\
      observers (calculator w') = observers (calculator w_undone) /\
      fs w' = fs w_undone /\ clock w' = clock w_undone
  | (Err _, _) => False
  end.
Proof.
  destruct (redo w_undone) as [[b|e] w'] eqn:E.
  - exact (undo_redo_conserve_snapshots w_undone w' b (or_intror E)).
  - vm_compute in E. discriminate.
Defined.

Lemma bounded_invariant_witness :
  bounded (calculator (snd (calculate "add" (VFloat 5%Q) (VFloat 3%Q) w_undone))).
Proof.
  destruct (calculate "add" (VFloat 5%Q) (VFloat 3%Q) w_undone) as [r w'] eqn:E.
  simpl. apply (proj1 (proj2 bounded_invariant w_undone
                  ltac:(vm_compute; split; [lia|split; repeat constructor; lia]))
                  _ _ _ r w' E).
Defined.

Lemma load_history_frame_witness :
  match load_history (Some "mixed.csv") w_cases with
  | (r, w') =>
      caretaker (calculator w') = caretaker (calculator w_cases) /\
      config (calculator w') = config (calculator w_cases) /\
      observers (calculator w') = observers (calculator w_cases) /\
      fs w' = fs w_cases /\ clock w' = clock w_cases /\
      max_size (history_manager (calculator w'))
        = max_size (history_manager (calculator w_cases)) /\
      match r with
      | Err _ => w' = w_cases
      | Ok l => get_all (history_manager (calculator w')) = l \/
                (l = [] /\ history_manager (calculator w') = history_manager (calculator w_cases))
      end
  end.
Proof.
  destruct (load_history (Some "mixed.csv") w_cases) as [r w'] eqn:E.
  exact (load_history_frame _ _ r w' E).
Defined.


End ConcreteExtra.
